(** * pendulum.period: the calendar-aware Period

    A shallow embedding of [pendulum/period.py] and the statements of its
    specification.  A point in time is a count of seconds on the proleptic
    Gregorian calendar (UTC, whole seconds); the collaborators of [Period]
    (the point-in-time type, the flat interval it derives from) are modelled
    in their own modules, the calendar decomposer [relativedelta] of dateutil
    is a parameter of the development. *)

From Stdlib Require Import ZArith List Bool Lia Permutation Sorted.
Import ListNotations.
Local Open Scope Z_scope.

(** ** The point-in-time collaborator *)

Module Calendar.

(** Modelled from the spec: the point-in-time type ([pendulum.py], [date.py]
    are not among the sources).  The spec asks of it an ordering, a
    subtraction that yields elapsed seconds, the addition and subtraction
    of N calendar units, the start-of-day normalisation and the
    weekday/weekend classification.  A point is the number of seconds since
    1970-01-01T00:00:00; a date-only value is a point at midnight. *)
Definition point := Z.

Definition SECONDS_PER_MINUTE := 60.
Definition SECONDS_PER_HOUR := 3600.
Definition SECONDS_PER_DAY := 86400.
Definition DAYS_PER_WEEK := 7.
Definition MONTHS_PER_YEAR := 12.

(** Proleptic Gregorian ordinal of 1970-01-01 (0001-01-01 has ordinal 1). *)
Definition EPOCH_ORDINAL := 719163.

Definition is_leap (y : Z) : bool :=
  (y mod 4 =? 0) && (negb (y mod 100 =? 0) || (y mod 400 =? 0)).

Definition days_in_month (y m : Z) : Z :=
  if m =? 2 then (if is_leap y then 29 else 28)
  else if (m =? 4) || (m =? 6) || (m =? 9) || (m =? 11) then 30
  else 31.

(** Days of the year before the first of month [m], in a common year. *)
Definition DAYS_BEFORE_MONTH (m : Z) : Z :=
  if m <=? 1 then 0 else if m =? 2 then 31 else if m =? 3 then 59
  else if m =? 4 then 90 else if m =? 5 then 120 else if m =? 6 then 151
  else if m =? 7 then 181 else if m =? 8 then 212 else if m =? 9 then 243
  else if m =? 10 then 273 else if m =? 11 then 304 else 334.

Definition days_before_year (y : Z) : Z :=
  let y1 := y - 1 in y1 * 365 + y1 / 4 - y1 / 100 + y1 / 400.

Definition days_before_month (y m : Z) : Z :=
  DAYS_BEFORE_MONTH m + (if (2 <? m) && is_leap y then 1 else 0).

Definition ymd2ord (y m d : Z) : Z :=
  days_before_year y + days_before_month y m + d.

(** Days before the first of the month of index [k], the months counted
    from January of year 0: month [k] is month [k mod 12 + 1] of year
    [k / 12]. *)
Definition first_of_month (k : Z) : Z :=
  days_before_year (k / 12) + days_before_month (k / 12) (k mod 12 + 1).

(** The inverse walk: 400-year, 100-year, 4-year cycles, then single
    years, then the month estimate [(n + 50) >> 5] with its correction. *)
Definition ord2ymd (ord : Z) : Z * Z * Z :=
  let n := ord - 1 in
  let n400 := n / 146097 in
  let n := n mod 146097 in
  let n100 := n / 36524 in
  let n := n mod 36524 in
  let n4 := n / 1461 in
  let n := n mod 1461 in
  let n1 := n / 365 in
  let n := n mod 365 in
  let year := n400 * 400 + 1 + n100 * 100 + n4 * 4 + n1 in
  if (n1 =? 4) || (n100 =? 4) then (year - 1, 12, 31)
  else
    let leapyear := (n1 =? 3) && (negb (n4 =? 24) || (n100 =? 3)) in
    let month := (n + 50) / 32 in
    let preceding :=
      DAYS_BEFORE_MONTH month + (if (2 <? month) && leapyear then 1 else 0) in
    if n <? preceding then
      let month := month - 1 in
      let preceding :=
        preceding - (days_in_month 1 month
                     + (if (month =? 2) && leapyear then 1 else 0)) in
      (year, month, n - preceding + 1)
    else (year, month, n - preceding + 1).

(** Day number (days since the epoch) and second of the day of a point. *)
Definition day_number (t : point) : Z := t / SECONDS_PER_DAY.
Definition second_of_day (t : point) : Z := t mod SECONDS_PER_DAY.

Definition civil (t : point) : Z * Z * Z :=
  ord2ymd (day_number t + EPOCH_ORDINAL).

(** The point of a civil date at a given second of its day. *)
Definition of_civil (y m d sod : Z) : point :=
  (ymd2ord y m d - EPOCH_ORDINAL) * SECONDS_PER_DAY + sod.

(** A date-only value. *)
Definition date (y m d : Z) : point := of_civil y m d 0.

(** The units a point is stepped by, named as the keyword arguments of
    [add] and [subtract]. *)
Inductive unit : Set :=
  years | months | weeks | days | hours | minutes | seconds.

(** Modelled from the spec: the addition of [n] calendar months, the day
    of the month clamped to the length of the target month (2023-01-31
    plus one month is 2023-02-28); the time of the day is kept. *)
Definition add_months (n : Z) (t : point) : point :=
  let '(y, m, d) := civil t in
  let k := y * MONTHS_PER_YEAR + (m - 1) + n in
  let y' := k / MONTHS_PER_YEAR in
  let m' := k mod MONTHS_PER_YEAR + 1 in
  of_civil y' m' (Z.min d (days_in_month y' m')) (second_of_day t).

(** Modelled from the spec: [point.add(unit=n)], the addition of [n]
    calendar units of one kind; a year is twelve months, the other units
    have a fixed length. *)
Definition add (u : unit) (n : Z) (t : point) : point :=
  match u with
  | years => add_months (n * MONTHS_PER_YEAR) t
  | months => add_months n t
  | weeks => t + n * (DAYS_PER_WEEK * SECONDS_PER_DAY)
  | days => t + n * SECONDS_PER_DAY
  | hours => t + n * SECONDS_PER_HOUR
  | minutes => t + n * SECONDS_PER_MINUTE
  | seconds => t + n
  end.

(** Modelled from the spec: [point.subtract(unit=n)]. *)
Definition subtract (u : unit) (n : Z) (t : point) : point := add u (- n) t.

(** Modelled from the spec: [point.start_of('day')], the start-of-day
    normalisation. *)
Definition start_of_day (t : point) : point := t - second_of_day t.

(** Modelled from the spec: the weekday/weekend classification, Saturday
    and Sunday being the weekend.  The day of the week is 0 for Sunday and
    6 for Saturday. *)
Definition day_of_week (t : point) : Z :=
  (day_number t + EPOCH_ORDINAL) mod DAYS_PER_WEEK.

Definition is_weekend (t : point) : bool :=
  (day_of_week t =? 6) || (day_of_week t =? 0).

Definition is_weekday (t : point) : bool := negb (is_weekend t).

(** The length in seconds of a unit of fixed length; months and years
    have none. *)
Definition unit_seconds (u : unit) : option Z :=
  match u with
  | years | months => None
  | weeks => Some (DAYS_PER_WEEK * SECONDS_PER_DAY)
  | days => Some SECONDS_PER_DAY
  | hours => Some SECONDS_PER_HOUR
  | minutes => Some SECONDS_PER_MINUTE
  | seconds => Some 1
  end.

End Calendar.

Import Calendar.

(** ** The calendar decomposition *)

Module Dateutil.

(** The value [dateutil.relativedelta.relativedelta(dt1, dt2)] builds: the
    signed calendar components of [dt1 - dt2].  Only the record is fixed
    here; the function that fills it is a parameter of [Period]. *)
Record relativedelta : Set := mk_relativedelta {
  years : Z;
  months : Z;
  days : Z;
  hours : Z;
  minutes : Z;
  seconds : Z
}.

(** The decomposer the examples run with: the span [dt1 - dt2] in days,
    hours, minutes and seconds, each truncated toward zero, and neither
    months nor years.  The theorems hold for every decomposer. *)
Definition day_delta (dt1 dt2 : point) : relativedelta :=
  let s := dt1 - dt2 in
  {| years := 0;
     months := 0;
     days := Z.quot s SECONDS_PER_DAY;
     hours := Z.rem (Z.quot s SECONDS_PER_HOUR) 24;
     minutes := Z.rem (Z.quot s SECONDS_PER_MINUTE) 60;
     seconds := Z.rem s SECONDS_PER_MINUTE |}.

End Dateutil.

(** ** The flat interval [Period] derives from *)

Module BaseInterval.

(** Modelled from the spec: [BaseInterval._sign] ([interval.py] is not
    among the sources); [days_exclude_weeks] is re-signed with it to match
    the sign of [days]. *)
Definition _sign (value : Z) : Z := if value <? 0 then -1 else 1.

(** Modelled from the spec: the [_days] attribute [BaseInterval.__new__]
    derives from the total of elapsed seconds, the elapsed time in whole
    days, signed. *)
Definition _days (total_seconds : Z) : Z :=
  Z.abs total_seconds / SECONDS_PER_DAY * _sign total_seconds.

End BaseInterval.

Module Interval.

(** Modelled from the spec: the flat elapsed-duration type [Interval],
    built by [Interval(seconds=...)] and known by its total of elapsed
    seconds. *)
Record t : Set := mk { seconds : Z }.

End Interval.

(** ** Period *)

Module Period.

(** The attributes [__init__] sets, and the total of elapsed seconds
    [__new__] hands to the interval base class. *)
Record t : Set := mk {
  _start : point;
  _end : point;
  _invert : bool;
  _absolute : bool;
  _delta : Dateutil.relativedelta;
  total_seconds : Z
}.

(** The local variables of the generator [xrange] between two yields. *)
Record xrange_state : Set := mk_xrange_state {
  xr_start : point;
  xr_i : Z
}.

Section WithDecomposer.

(** [relativedelta dt1 dt2] of dateutil, a third-party library. *)
Variable relativedelta : point -> point -> Dateutil.relativedelta.

(** [Period.__new__]: the seconds handed to the base class.  The
    endpoints are points already: unwrapping a [Pendulum] or a [Date] to
    the [datetime] or [date] it holds keeps the point. *)
Definition __new__ (start end_ : point) (absolute : bool) : Z :=
  let '(start, end_) :=
    if absolute && (start >? end_) then (end_, start) else (start, end_) in
  let delta := end_ - start in
  delta.

(** [Period.__init__] on the instance [__new__] returned, which carries
    [seconds].  [start], [end_] are the wrapped endpoints and [_start],
    [_end] the unwrapped ones, the same points. *)
Definition __init__ (seconds : Z) (start end_ : point) (absolute : bool)
  : t :=
  let _start := start in
  let _end := end_ in
  let '(_invert, (start, end_), (_start, _end)) :=
    if start >? end_ then
      if absolute then (true, (end_, start), (_end, _start))
      else (true, (start, end_), (_start, _end))
    else (false, (start, end_), (_start, _end)) in
  {| _start := start;
     _end := end_;
     _invert := _invert;
     _absolute := absolute;
     _delta := relativedelta _end _start;
     total_seconds := seconds |}.

(** The call [Period(start, end, absolute)]: [__new__], then [__init__]
    with the same arguments. *)
Definition create (start end_ : point) (absolute : bool) : t :=
  __init__ (__new__ start end_ absolute) start end_ absolute.

Definition start (self : t) : point := _start self.
Definition end_ (self : t) : point := _end self.

(** Modelled from the spec: the property [invert] of [BaseInterval], which
    reads the [_invert] that [__init__] has set. *)
Definition invert (self : t) : bool := _invert self.

Definition years (self : t) : Z := Dateutil.years (_delta self).
Definition months (self : t) : Z := Dateutil.months (_delta self).

(** [self._days] is the attribute of [BaseInterval]. *)
Definition days (self : t) : Z := BaseInterval._days (total_seconds self).

Definition days_exclude_weeks (self : t) : Z :=
  Z.abs (Dateutil.days (_delta self)) mod 7 * BaseInterval._sign (days self).

Definition in_years (self : t) : Z := years self.

Definition in_months (self : t) : Z :=
  years self * MONTHS_PER_YEAR + months self.

(** The loop shared by [in_weekdays] and [in_weekend_days]:
    [while start <= end: if test(start): days += 1; start = start.add(days=1)].
    [None] when the fuel runs out before the loop exits. *)
Fixpoint count_days_loop (test : point -> bool) (fuel : nat)
    (start end_ : point) (days_ : Z) : option Z :=
  match fuel with
  | O => None
  | S fuel' =>
      if start <=? end_ then
        count_days_loop test fuel' (add Calendar.days 1 start) end_
          (if test start then days_ + 1 else days_)
      else Some days_
  end.

Definition in_weekdays (fuel : nat) (self : t) : option Z :=
  let '(start, end_) :=
    if negb (_absolute self) && invert self then
      (start_of_day (end_ self), start_of_day (start self))
    else (start_of_day (start self), start_of_day (end_ self)) in
  match count_days_loop is_weekday fuel start end_ 0 with
  | Some days_ =>
      Some (days_ * (if negb (_absolute self) && invert self then -1 else 1))
  | None => None
  end.

Definition in_weekend_days (fuel : nat) (self : t) : option Z :=
  let '(start, end_) :=
    if negb (_absolute self) && invert self then
      (start_of_day (end_ self), start_of_day (start self))
    else (start_of_day (start self), start_of_day (end_ self)) in
  match count_days_loop is_weekend fuel start end_ 0 with
  | Some days_ =>
      Some (days_ * (if negb (_absolute self) && invert self then -1 else 1))
  | None => None
  end.

(** [xrange] is a generator.  [xrange_start] is its state before the
    first [next], [xrange_next] runs it to the next [yield] ([Some] of
    the value and the state after it) or to its end ([None]). *)
Definition xrange_method (self : t) : unit -> Z -> point -> point :=
  if negb (_absolute self) && invert self then subtract else add.

Definition xrange_op (self : t) : point -> point -> bool :=
  if negb (_absolute self) && invert self then Z.geb else Z.leb.

Definition xrange_start (self : t) : xrange_state :=
  {| xr_start := start self; xr_i := 1 |}.

Definition xrange_next (self : t) (unit_ : unit) (st : xrange_state)
  : option (point * xrange_state) :=
  if xrange_op self (xr_start st) (end_ self) then
    Some (xr_start st,
          {| xr_start := xrange_method self unit_ (xr_i st) (start self);
             xr_i := xr_i st + 1 |})
  else None.

(** [list(generator)]: every value the generator yields from state [st]
    on; [None] when the fuel runs out before the generator ends. *)
Fixpoint xrange_list (fuel : nat) (self : t) (unit_ : unit)
    (st : xrange_state) : option (list point) :=
  match fuel with
  | O => None
  | S fuel' =>
      match xrange_next self unit_ st with
      | None => Some []
      | Some (x, st') =>
          match xrange_list fuel' self unit_ st' with
          | Some l => Some (x :: l)
          | None => None
          end
      end
  end.

Definition range (fuel : nat) (self : t) (unit_ : unit)
  : option (list point) :=
  xrange_list fuel self unit_ (xrange_start self).

(** One turn of the [for] loop of [intersect] on its three locals. *)
Definition intersect_step (acc : point * point * bool) (period : t)
  : point * point * bool :=
  let '(start_, end__, has_intersection) := acc in
  if (end_ period <? start_) || (start period >? end__) then
    (start_, end__, has_intersection)
  else (Z.max start_ (start period), Z.min end__ (end_ period), true).

(** [None] is Python's [None]. *)
Definition intersect (self : t) (periods : list t) : option t :=
  let '(start_, end__, has_intersection) :=
    fold_left intersect_step periods (start self, end_ self, false) in
  if negb has_intersection then None
  else Some (create start_ end__ false).

Definition __neg__ (self : t) : t :=
  create (end_ self) (start self) (_absolute self).

Definition __abs__ (self : t) : t :=
  create (start self) (end_ self) true.

Definition _getstate (self : t) : point * point * bool :=
  let '(start_, end__) :=
    if _invert self && _absolute self then (end_ self, start self)
    else (start self, end_ self) in
  (start_, end__, _absolute self).

(** [__reduce_ex__] returns the class and the state; unpickling calls
    the class on the state. *)
Definition __reduce_ex__ (self : t)
  : (point -> point -> bool -> t) * (point * point * bool) :=
  (create, _getstate self).

Definition reconstruct
    (r : (point -> point -> bool -> t) * (point * point * bool)) : t :=
  let '(cls, (start_, end__, absolute)) := r in cls start_ end__ absolute.

(** [as_interval]: [Interval(seconds=self.total_seconds())]. *)
Definition as_interval (self : t) : Interval.t :=
  Interval.mk (total_seconds self).

(** [__iter__] returns the generator [self.xrange('days')]; [list_iter] is
    [list(iter(self))], with the fuel of [xrange_list]. *)
Definition list_iter (fuel : nat) (self : t) : option (list point) :=
  xrange_list fuel self Calendar.days (xrange_start self).

End WithDecomposer.

End Period.

(** ** The words of the specification *)

Module Spec.

(** The largest and the smallest of a value and the values of a list. *)
Definition maximum (x : Z) (l : list Z) : Z := fold_right Z.max x l.
Definition minimum (x : Z) (l : list Z) : Z := fold_right Z.min x l.

(** The supplied periods an intersection keeps: a period is skipped when
    it does not overlap the running bounds ([other.end < start] or
    [other.start > end]), and a kept period narrows the running bounds
    for the periods after it. *)
Fixpoint kept (start_ end__ : point) (periods : list Period.t)
  : list Period.t :=
  match periods with
  | [] => []
  | other :: periods' =>
      if (Period.end_ other <? start_) || (Period.start other >? end__)
      then kept start_ end__ periods'
      else other :: kept (Z.max start_ (Period.start other))
                         (Z.min end__ (Period.end_ other)) periods'
  end.

(** The days from [first] on, [n] of them, that satisfy [test]. *)
Fixpoint count_days (test : point -> bool) (n : nat) (first : point) : Z :=
  match n with
  | O => 0
  | S n' => (if test first then 1 else 0)
            + count_days test n' (first + SECONDS_PER_DAY)
  end.

(** The walk of a range: its [j]th point is [start] itself, then the
    point [j] units from the origin [start] (towards the past for an
    inverted period that is not absolute); [state_at] is the state of the
    generator [xrange] that is about to yield it. *)
Definition point_at (self : Period.t) (unit_ : unit) (j : nat) : point :=
  match j with
  | O => Period.start self
  | S _ => Period.xrange_method self unit_ (Z.of_nat j) (Period.start self)
  end.

Definition state_at (self : Period.t) (unit_ : unit) (j : nat)
  : Period.xrange_state :=
  {| Period.xr_start := point_at self unit_ j;
     Period.xr_i := Z.of_nat j + 1 |}.

End Spec.

(** Dates of the examples. *)
Definition jan (d : Z) : point := date 2023 1 d.
Definition jun (d : Z) : point := date 2023 6 d.

(** ** Facts of the calendar *)

Ltac lia_div := Z.to_euclidean_division_equations; lia.

Section CalendarFacts.

Lemma is_leap_true (y : Z) :
  is_leap y = true <->
  y mod 4 = 0 /\ (y mod 100 <> 0 \/ y mod 400 = 0).
Proof.
  unfold is_leap.
  rewrite andb_true_iff, orb_true_iff, negb_true_iff, !Z.eqb_eq, Z.eqb_neq.
  tauto.
Qed.

Lemma is_leap_false (y : Z) :
  is_leap y = false <->
  ~ (y mod 4 = 0 /\ (y mod 100 <> 0 \/ y mod 400 = 0)).
Proof.
  rewrite <- is_leap_true. destruct (is_leap y); split; congruence.
Qed.

Lemma days_in_month_bounds (y m : Z) : 28 <= days_in_month y m <= 31.
Proof.
  unfold days_in_month.
  destruct (m =? 2); [destruct (is_leap y); lia|].
  destruct ((m =? 4) || (m =? 6) || (m =? 9) || (m =? 11)); lia.
Qed.

(** A month ends where the next one starts. *)
Lemma first_of_month_succ (k : Z) :
  first_of_month (k + 1) =
  first_of_month k + days_in_month (k / 12) (k mod 12 + 1).
Proof.
  unfold first_of_month, days_before_year, days_before_month,
    days_in_month, DAYS_BEFORE_MONTH.
  assert (H : 0 <= k mod 12 < 12) by (apply Z.mod_pos_bound; lia).
  assert (C : k mod 12 = 11 \/ k mod 12 < 11) by lia.
  destruct C as [C|C].
  - assert (E1 : (k + 1) / 12 = k / 12 + 1) by lia_div.
    assert (E2 : (k + 1) mod 12 = 0) by lia_div.
    rewrite E1, E2, C. cbn -[Z.div Z.modulo Z.add Z.mul Z.sub is_leap].
    replace (k / 12 + 1 - 1) with (k / 12) by lia.
    destruct (is_leap (k / 12)) eqn:L;
      [apply is_leap_true in L | apply is_leap_false in L];
      destruct (is_leap (k / 12 + 1)); cbn; lia_div.
  - assert (E1 : (k + 1) / 12 = k / 12) by lia_div.
    assert (E2 : (k + 1) mod 12 = k mod 12 + 1) by lia_div.
    rewrite E1, E2. generalize dependent (k mod 12). intros m Hm Cm _.
    assert (M : m = 0 \/ m = 1 \/ m = 2 \/ m = 3 \/ m = 4 \/ m = 5 \/
                m = 6 \/ m = 7 \/ m = 8 \/ m = 9 \/ m = 10) by lia.
    destruct (is_leap (k / 12));
      destruct M as [M|[M|[M|[M|[M|[M|[M|[M|[M|[M|M]]]]]]]]]];
      subst m; cbn; lia_div.
Qed.

(** The two conversions between ordinals and civil dates: [ord2ymd]
    returns a date of the calendar, and [ymd2ord] takes it back. *)
Lemma ord2ymd_spec (n : Z) :
  let '(y, m, d) := ord2ymd n in
  ymd2ord y m d = n /\ 1 <= m <= 12 /\ 1 <= d <= days_in_month y m.
Proof.
  unfold ord2ymd.
  set (n0 := n - 1).
  set (n400 := n0 / 146097). set (r1 := n0 mod 146097).
  set (n100 := r1 / 36524). set (r2 := r1 mod 36524).
  set (n4 := r2 / 1461). set (r3 := r2 mod 1461).
  set (n1 := r3 / 365). set (r4 := r3 mod 365).
  assert (B1 : 0 <= r1 < 146097) by (apply Z.mod_pos_bound; lia).
  assert (B2 : 0 <= r2 < 36524) by (apply Z.mod_pos_bound; lia).
  assert (B3 : 0 <= r3 < 1461) by (apply Z.mod_pos_bound; lia).
  assert (B4 : 0 <= r4 < 365) by (apply Z.mod_pos_bound; lia).
  assert (E1 : n0 = 146097 * n400 + r1) by (apply Z.div_mod; lia).
  assert (E2 : r1 = 36524 * n100 + r2) by (apply Z.div_mod; lia).
  assert (E3 : r2 = 1461 * n4 + r3) by (apply Z.div_mod; lia).
  assert (E4 : r3 = 365 * n1 + r4) by (apply Z.div_mod; lia).
  assert (N100 : 0 <= n100 <= 4) by lia.
  assert (N4 : 0 <= n4 <= 24) by lia.
  assert (N1 : 0 <= n1 <= 4) by lia.
  clearbody n400 r1 n100 r2 n4 r3 n1 r4.
  destruct ((n1 =? 4) || (n100 =? 4)) eqn:Last.
  - unfold ymd2ord, days_before_year, days_before_month.
    change (DAYS_BEFORE_MONTH 12) with 334.
    change (2 <? 12) with true. cbn [andb].
    change (days_in_month ?y 12) with 31.
    apply orb_true_iff in Last. rewrite !Z.eqb_eq in Last.
    destruct (is_leap _) eqn:L;
      [apply is_leap_true in L | apply is_leap_false in L]; lia_div.
  - apply orb_false_iff in Last. rewrite !Z.eqb_neq in Last.
    set (year := n400 * 400 + 1 + n100 * 100 + n4 * 4 + n1).
    assert (DY : days_before_year year = n0 - r4).
    { unfold days_before_year, year. lia_div. }
    assert (LY : (n1 =? 3) && (negb (n4 =? 24) || (n100 =? 3))
                 = is_leap year).
    { destruct (is_leap year) eqn:L;
        [apply is_leap_true in L | apply is_leap_false in L].
      - apply andb_true_iff.
        rewrite orb_true_iff, negb_true_iff, Z.eqb_neq, !Z.eqb_eq.
        unfold year in L. lia_div.
      - apply not_true_iff_false.
        rewrite andb_true_iff, orb_true_iff, negb_true_iff, Z.eqb_neq,
          !Z.eqb_eq.
        unfold year in L. lia_div. }
    rewrite LY. clearbody year.
    assert (M : 1 <= (r4 + 50) / 32 <= 12) by lia_div.
    set (month := (r4 + 50) / 32) in *.
    assert (MB : 32 * month - 50 <= r4 <= 32 * month - 19)
      by (unfold month; lia_div).
    clearbody month.
    assert (MM : month = 1 \/ month = 2 \/ month = 3 \/ month = 4 \/
                 month = 5 \/ month = 6 \/ month = 7 \/ month = 8 \/
                 month = 9 \/ month = 10 \/ month = 11 \/ month = 12)
      by lia.
    destruct (is_leap year) eqn:L;
      destruct MM as [M'|[M'|[M'|[M'|[M'|[M'|[M'|[M'|[M'|[M'|[M'|M']]]]]]]]]]];
      subst month; cbn;
      match goal with
      | |- context [?a <? ?b] => destruct (Z.ltb_spec a b)
      end;
      unfold ymd2ord, days_before_month, days_in_month;
      rewrite DY, ?L; cbn; lia.
Qed.

Lemma civil_spec (t : point) :
  let '(y, m, d) := civil t in
  ymd2ord y m d = day_number t + EPOCH_ORDINAL /\
  1 <= m <= 12 /\ 1 <= d <= days_in_month y m.
Proof. apply ord2ymd_spec. Qed.

Lemma point_day_second (t : point) :
  t = day_number t * SECONDS_PER_DAY + second_of_day t /\
  0 <= second_of_day t < SECONDS_PER_DAY.
Proof.
  unfold day_number, second_of_day, SECONDS_PER_DAY. lia_div.
Qed.

(** [add_months] in terms of the first day of the target month. *)
Lemma add_months_first_of_month (n : Z) (t : point) :
  let '(y, m, d) := civil t in
  let k := y * 12 + (m - 1) + n in
  add_months n t =
  (first_of_month k + Z.min d (days_in_month (k / 12) (k mod 12 + 1))
   - EPOCH_ORDINAL) * SECONDS_PER_DAY + second_of_day t.
Proof.
  unfold add_months. destruct (civil t) as [[y m] d]. reflexivity.
Qed.

Lemma add_months_0 (t : point) : add_months 0 t = t.
Proof.
  pose proof (add_months_first_of_month 0 t) as E.
  pose proof (civil_spec t) as C.
  destruct (civil t) as [[y m] d]. cbv zeta in E.
  destruct C as (C1 & C2 & C3).
  assert (K1 : (y * 12 + (m - 1) + 0) / 12 = y) by lia_div.
  assert (K2 : (y * 12 + (m - 1) + 0) mod 12 + 1 = m) by lia_div.
  unfold first_of_month in E. rewrite K1, K2 in E.
  unfold ymd2ord in C1. rewrite E.
  pose proof (point_day_second t).
  unfold SECONDS_PER_DAY, EPOCH_ORDINAL in *. lia.
Qed.

(** One month more is a later point: the target month starts where the
    month before it ends, and the clamped day stays within its month. *)
Lemma add_months_succ (n : Z) (t : point) :
  add_months n t < add_months (n + 1) t.
Proof.
  pose proof (add_months_first_of_month n t) as E.
  pose proof (add_months_first_of_month (n + 1) t) as E'.
  pose proof (civil_spec t) as C.
  destruct (civil t) as [[y m] d]. cbv zeta in E, E'.
  destruct C as (_ & _ & C3).
  replace (y * 12 + (m - 1) + (n + 1)) with (y * 12 + (m - 1) + n + 1)
    in E' by lia.
  set (k := y * 12 + (m - 1) + n) in *.
  rewrite first_of_month_succ in E'.
  pose proof (days_in_month_bounds (k / 12) (k mod 12 + 1)).
  pose proof (days_in_month_bounds ((k + 1) / 12) ((k + 1) mod 12 + 1)).
  unfold SECONDS_PER_DAY in *. lia.
Qed.

Lemma add_months_lt (t : point) (n n' : Z) :
  n < n' -> add_months n t < add_months n' t.
Proof.
  intros H. replace n' with (n + 1 + (n' - n - 1)) by lia.
  assert (P : 0 <= n' - n - 1) by lia.
  generalize dependent (n' - n - 1). clear H.
  apply natlike_ind.
  - rewrite Z.add_0_r. apply add_months_succ.
  - intros x Hx IH. pose proof (add_months_succ (n + 1 + x) t).
    replace (n + 1 + Z.succ x) with (n + 1 + x + 1) by lia. lia.
Qed.

(** Adding no unit changes nothing, and more units give a later point. *)
Lemma add_0 (u : unit) (t : point) : add u 0 t = t.
Proof.
  destruct u; cbn [add]; try lia; apply add_months_0.
Qed.

Lemma add_lt (u : unit) (t : point) (n n' : Z) :
  n < n' -> add u n t < add u n' t.
Proof.
  intros H.
  destruct u; cbn [add];
    unfold MONTHS_PER_YEAR, DAYS_PER_WEEK, SECONDS_PER_DAY,
      SECONDS_PER_HOUR, SECONDS_PER_MINUTE;
    try lia; apply add_months_lt; lia.
Qed.

Lemma add_le (u : unit) (t : point) (n n' : Z) :
  n <= n' -> add u n t <= add u n' t.
Proof.
  intros H. destruct (Z.eq_dec n n') as [->|]; [lia|].
  apply Z.lt_le_incl, add_lt. lia.
Qed.

(** The points [add u n t] leave every bound behind. *)
Lemma add_ge (u : unit) (t : point) (n : Z) :
  0 <= n -> t + n <= add u n t.
Proof.
  intros H. apply natlike_ind with (x := n); [|intros x Hx IH|exact H].
  - rewrite add_0. lia.
  - pose proof (add_lt u t x (Z.succ x)). lia.
Qed.

Lemma subtract_le (u : unit) (t : point) (n : Z) :
  0 <= n -> subtract u n t <= t - n.
Proof.
  intros H. unfold subtract.
  apply natlike_ind with (x := n); [|intros x Hx IH|exact H].
  - cbn. rewrite add_0. lia.
  - pose proof (add_lt u t (- Z.succ x) (- x)). lia.
Qed.

Lemma start_of_day_idem (t : point) :
  start_of_day (start_of_day t) = start_of_day t.
Proof.
  unfold start_of_day, second_of_day, SECONDS_PER_DAY. lia_div.
Qed.

Lemma start_of_day_date (y m d : Z) : start_of_day (date y m d) = date y m d.
Proof.
  unfold start_of_day, second_of_day, date, of_civil, SECONDS_PER_DAY.
  lia_div.
Qed.

(** Every day is a weekday or a day of the weekend, never both. *)
Lemma is_weekday_weekend (t : point) :
  (if is_weekday t then 1 else 0) + (if is_weekend t then 1 else 0) = 1.
Proof.
  unfold is_weekday. destruct (is_weekend t); reflexivity.
Qed.

End CalendarFacts.

(** ** Construction, sign and serialisation *)

Section Properties.

Variable relativedelta : point -> point -> Dateutil.relativedelta.

Local Abbreviation Period := (Period.create relativedelta).

Lemma create_unfold (a b : point) (absolute : bool) :
  Period a b absolute =
  Period.mk
    (if (a >? b) && absolute then b else a)
    (if (a >? b) && absolute then a else b)
    (a >? b)
    absolute
    (if (a >? b) && absolute then relativedelta a b else relativedelta b a)
    (if absolute && (a >? b) then a - b else b - a).
Proof.
  unfold Period.create, Period.__init__, Period.__new__.
  destruct (a >? b), absolute; reflexivity.
Qed.

Lemma create_not_absolute (a b : point) :
  Period.start (Period a b false) = a /\
  Period.end_ (Period a b false) = b /\
  Period.invert (Period a b false) = (a >? b) /\
  Period._absolute (Period a b false) = false.
Proof.
  rewrite create_unfold. cbn. rewrite andb_false_r. repeat split.
Qed.

(** C1 (amended): for endpoints [a <= b], [Period(a, b)] is not inverted
    whatever the absolute flag; [Period(b, a)] is inverted exactly when
    [a < b] (for [a = b] it is not); [Period(b, a, absolute=true)] stores
    [start = a] and [end = b]; and every period built with
    [absolute=true] has [start <= end]. *)
Theorem constructor_normalization (a b : point) (Hab : a <= b) :
  (forall absolute, Period.invert (Period a b absolute) = false) /\
  (forall absolute, Period.invert (Period b a absolute) = (a <? b)) /\
  Period.start (Period b a true) = a /\
  Period.end_ (Period b a true) = b /\
  (forall s e, Period.start (Period s e true) <= Period.end_ (Period s e true)).
Proof.
  repeat split; intros; rewrite create_unfold; cbn.
  - rewrite Z.gtb_ltb. apply Z.ltb_ge. exact Hab.
  - apply Z.gtb_ltb.
  - rewrite andb_true_r. destruct (Z.gtb_spec b a); lia.
  - rewrite andb_true_r. destruct (Z.gtb_spec b a); lia.
  - rewrite andb_true_r. destruct (Z.gtb_spec s e); lia.
Qed.

(** C2 (amended): the stored total of elapsed seconds is [end - start] of
    the stored endpoints: with [absolute=false] that is the difference in
    the order supplied, signed; with [absolute=true] the endpoints are
    swapped before the subtraction and the total is the magnitude of the
    difference, never negative. *)
Theorem total_seconds_stored (a b : point) :
  (forall absolute,
     Period.total_seconds (Period a b absolute) =
     Period.end_ (Period a b absolute) - Period.start (Period a b absolute)) /\
  Period.total_seconds (Period a b false) = b - a /\
  Period.total_seconds (Period a b true) = Z.abs (b - a).
Proof.
  repeat split; intros; rewrite !create_unfold; cbn.
  - destruct (a >? b), absolute; reflexivity.
  - reflexivity.
  - destruct (Z.gtb_spec a b); lia.
Qed.

(** C3: a period rebuilt from what [__reduce_ex__] returns, the class
    called on the state triple of [_getstate], is the period itself: the
    same start, end, invert and absolute (and the same delta and total of
    seconds). *)
Theorem serialization_round_trip (a b : point) (absolute : bool) :
  let p := Period a b absolute in
  let p' := Period.reconstruct (Period.__reduce_ex__ relativedelta p) in
  p' = p /\
  Period.start p' = Period.start p /\
  Period.end_ p' = Period.end_ p /\
  Period.invert p' = Period.invert p /\
  Period._absolute p' = Period._absolute p.
Proof.
  cbv zeta.
  assert (E : Period.reconstruct
                (Period.__reduce_ex__ relativedelta (Period a b absolute))
              = Period a b absolute).
  { unfold Period.reconstruct, Period.__reduce_ex__, Period._getstate.
    rewrite (create_unfold a b). unfold Period.start, Period.end_. cbn.
    destruct (a >? b) eqn:G, absolute; cbn; try reflexivity.
    all: rewrite create_unfold, G; reflexivity. }
  rewrite E. repeat split.
Qed.

(** C7: [days_exclude_weeks] is the magnitude of the day component of the
    calendar delta modulo 7, negated when [days] is negative, so its
    magnitude lies between 0 and 6. *)
Theorem days_exclude_weeks_range (p : Period.t) :
  Period.days_exclude_weeks p =
    (if Period.days p <? 0
     then - (Z.abs (Dateutil.days (Period._delta p)) mod 7)
     else Z.abs (Dateutil.days (Period._delta p)) mod 7) /\
  Z.abs (Period.days_exclude_weeks p) =
    Z.abs (Dateutil.days (Period._delta p)) mod 7 /\
  0 <= Z.abs (Period.days_exclude_weeks p) <= 6.
Proof.
  unfold Period.days_exclude_weeks, BaseInterval._sign.
  pose proof (Z.mod_pos_bound (Z.abs (Dateutil.days (Period._delta p))) 7
                ltac:(lia)) as B.
  destruct (Period.days p <? 0); lia.
Qed.

(** C9: the negation of a period built with [absolute=true] stores the
    same start and end as the period: the constructor swaps the reversed
    endpoints back, and they stay in order. *)
Theorem neg_absolute_keeps_endpoints (a b : point) :
  let p := Period a b true in
  let q := Period.__neg__ relativedelta p in
  Period.start q = Period.start p /\
  Period.end_ q = Period.end_ p /\
  Period._absolute q = true /\
  Period.start q <= Period.end_ q.
Proof.
  cbv zeta. unfold Period.__neg__.
  rewrite (create_unfold a b). unfold Period.start, Period.end_. cbn.
  rewrite create_unfold. cbn. rewrite !andb_true_r.
  destruct (Z.gtb_spec a b); cbn.
  - destruct (Z.gtb_spec a b); cbn; repeat split; lia.
  - destruct (Z.gtb_spec b a); cbn; repeat split; lia.
Qed.

(** ** Intersection *)

Local Abbreviation intersect := (Period.intersect relativedelta).

Lemma maximum_max (a x : Z) (l : list Z) :
  Spec.maximum (Z.max x a) l = Z.max a (Spec.maximum x l).
Proof.
  unfold Spec.maximum, Spec.minimum.
  induction l as [|b l IH]; cbn; [lia|]. rewrite IH. lia.
Qed.

Lemma minimum_min (a x : Z) (l : list Z) :
  Spec.minimum (Z.min x a) l = Z.min a (Spec.minimum x l).
Proof.
  unfold Spec.maximum, Spec.minimum.
  induction l as [|b l IH]; cbn; [lia|]. rewrite IH. lia.
Qed.

(** The [for] loop of [intersect], from any running bounds. *)
Lemma fold_intersect_step (periods : list Period.t) :
  forall (s e : point) (h : bool),
    fold_left Period.intersect_step periods (s, e, h) =
    (Spec.maximum s (map Period.start (Spec.kept s e periods)),
     Spec.minimum e (map Period.end_ (Spec.kept s e periods)),
     match Spec.kept s e periods with [] => h | _ :: _ => true end).
Proof.
  induction periods as [|q periods IH]; intros s e h; cbn; [reflexivity|].
  destruct ((Period.end_ q <? s) || (Period.start q >? e)).
  - apply IH.
  - rewrite IH, maximum_max, minimum_min. cbn.
    destruct (Spec.kept _ _ periods); reflexivity.
Qed.

Lemma intersect_unfold (self : Period.t) (periods : list Period.t) :
  intersect self periods =
  match Spec.kept (Period.start self) (Period.end_ self) periods with
  | [] => None
  | ks =>
      Some (Period
              (Spec.maximum (Period.start self) (map Period.start ks))
              (Spec.minimum (Period.end_ self) (map Period.end_ ks))
              false)
  end.
Proof.
  unfold Period.intersect. rewrite fold_intersect_step.
  destruct (Spec.kept _ _ periods); reflexivity.
Qed.

(** C5: [intersect] folds over the supplied periods with running bounds,
    skips each period that does not overlap the running bounds, and takes
    the largest start and the smallest end of the receiver and the kept
    periods; with no supplied period, or none that overlaps, the result is
    [None], and otherwise a new period over these bounds. *)
Theorem intersect_fold (self : Period.t) (periods : list Period.t) :
  intersect self periods =
    match Spec.kept (Period.start self) (Period.end_ self) periods with
    | [] => None
    | ks =>
        Some (Period
                (Spec.maximum (Period.start self) (map Period.start ks))
                (Spec.minimum (Period.end_ self) (map Period.end_ ks))
                false)
    end /\
  intersect self [] = None /\
  (intersect self periods = None <->
   Spec.kept (Period.start self) (Period.end_ self) periods = []).
Proof.
  split; [apply intersect_unfold|]. split; [reflexivity|].
  rewrite intersect_unfold.
  destruct (Spec.kept _ _ periods); split; intros H;
    try reflexivity; discriminate H.
Qed.

(** C8: a period [intersect] returns is built with [absolute=false],
    whatever the absolute flags of the receiver and of the supplied
    periods. *)
Theorem intersect_not_absolute (self : Period.t) (periods : list Period.t)
    (r : Period.t) (Hr : intersect self periods = Some r) :
  Period._absolute r = false.
Proof.
  rewrite intersect_unfold in Hr.
  destruct (Spec.kept _ _ periods); [discriminate Hr|].
  injection Hr as <-. apply create_not_absolute.
Qed.

(** The running bounds stay in order over kept periods that are in
    order. *)
Lemma kept_bounds_ordered (periods : list Period.t) :
  forall s e : point,
    s <= e ->
    Forall (fun q => Period.start q <= Period.end_ q) periods ->
    Spec.maximum s (map Period.start (Spec.kept s e periods)) <=
    Spec.minimum e (map Period.end_ (Spec.kept s e periods)).
Proof.
  induction periods as [|q periods IH]; intros s e Hse Hall;
    [exact Hse|].
  inversion Hall as [|? ? Hq Hall']; subst. cbn [Spec.kept].
  destruct (Z.ltb_spec (Period.end_ q) s) as [|H1];
    cbn [orb]; [now apply IH|].
  destruct (Z.gtb_spec (Period.start q) e) as [|H2]; [now apply IH|].
  cbn [map].
  change (Spec.maximum s (?a :: ?l)) with (Z.max a (Spec.maximum s l)).
  change (Spec.minimum e (?a :: ?l)) with (Z.min a (Spec.minimum e l)).
  rewrite <- maximum_max, <- minimum_min.
  apply IH; [lia|assumption].
Qed.

(** C10: when the receiver and every supplied period have
    [start <= end], a period [intersect] returns has [start <= end] and
    is not inverted; a period that only touches the receiver
    ([other.end == start] or [other.start == end]) intersects it, in a
    period of zero length. *)
Theorem intersect_ordered (self : Period.t)
    (Hself : Period.start self <= Period.end_ self) :
  (forall periods r,
     Forall (fun q => Period.start q <= Period.end_ q) periods ->
     intersect self periods = Some r ->
     Period.start r <= Period.end_ r /\ Period.invert r = false) /\
  (forall other,
     Period.start other <= Period.end_ other ->
     Period.end_ other = Period.start self ->
     intersect self [other] =
       Some (Period (Period.start self) (Period.start self) false)) /\
  (forall other,
     Period.start other <= Period.end_ other ->
     Period.start other = Period.end_ self ->
     intersect self [other] =
       Some (Period (Period.end_ self) (Period.end_ self) false)).
Proof.
  split; [|split].
  - intros periods r Hall Hr. rewrite intersect_unfold in Hr.
    pose proof (kept_bounds_ordered periods _ _ Hself Hall) as Hb.
    destruct (Spec.kept _ _ periods) as [|k ks]; [discriminate Hr|].
    injection Hr as <-.
    match goal with
    | |- Period.start (Period ?x ?y false) <= _ /\ _ =>
        destruct (create_not_absolute x y) as (-> & -> & -> & _)
    end.
    split; [exact Hb|]. rewrite Z.gtb_ltb. apply Z.ltb_ge. exact Hb.
  - intros other Ho He. rewrite intersect_unfold. cbn.
    destruct (Z.ltb_spec (Period.end_ other) (Period.start self)); [lia|].
    destruct (Z.gtb_spec (Period.start other) (Period.end_ self)); [lia|].
    cbn. do 2 f_equal; lia.
  - intros other Ho He. rewrite intersect_unfold. cbn.
    destruct (Z.ltb_spec (Period.end_ other) (Period.start self)); [lia|].
    destruct (Z.gtb_spec (Period.start other) (Period.end_ self)); [lia|].
    cbn. do 2 f_equal; lia.
Qed.

(** ** Weekdays and weekend days *)

(** The counting loop from [s] to [e] takes one turn per day, [s] and
    every day after it up to [e]. *)
Lemma count_days_loop_spec (test : point -> bool) (e : point) (n : nat) :
  forall (fuel : nat) (s : point) (acc : Z),
    Z.to_nat ((e - s) / SECONDS_PER_DAY + 1) = n ->
    (n < fuel)%nat ->
    Period.count_days_loop test fuel s e acc =
    Some (acc + Spec.count_days test n s).
Proof.
  unfold SECONDS_PER_DAY.
  induction n as [|n IH]; intros fuel s acc Hn Hfuel;
    (destruct fuel as [|fuel]; [lia|]); cbn [Period.count_days_loop].
  - destruct (Z.leb_spec s e) as [Hle|Hgt]; [exfalso; lia_div|].
    cbn. f_equal. lia.
  - destruct (Z.leb_spec s e) as [Hle|Hgt]; [|exfalso; lia_div].
    cbn [add Spec.count_days]. unfold SECONDS_PER_DAY.
    replace (s + 1 * 86400) with (s + 86400) by lia.
    rewrite IH; [|lia_div|lia].
    destruct (test s); f_equal; lia.
Qed.

Lemma count_days_split (n : nat) :
  forall s : point,
    Spec.count_days is_weekday n s + Spec.count_days is_weekend n s
    = Z.of_nat n.
Proof.
  induction n as [|n IH]; intros s; [reflexivity|].
  cbn [Spec.count_days]. pose proof (IH (s + SECONDS_PER_DAY)).
  pose proof (is_weekday_weekend s). lia.
Qed.

(** C6: for day-granularity endpoints [a <= b], [in_weekdays] and
    [in_weekend_days] count the days from [a] through [b], both included
    (a period of one day counts 1 in the category of that day); for the
    inverted period [Period(b, a)], not absolute, the count is the
    negated count of [Period(a, b)]. *)
Theorem weekday_counting (a b : point) (Hab : a <= b)
    (Ha : start_of_day a = a) (Hb : start_of_day b = b) :
  let n := Z.to_nat ((b - a) / SECONDS_PER_DAY + 1) in
  let weekdays := Spec.count_days is_weekday n a in
  let weekend_days := Spec.count_days is_weekend n a in
  a + (Z.of_nat n - 1) * SECONDS_PER_DAY = b /\
  weekdays + weekend_days = Z.of_nat n /\
  (forall fuel absolute,
     (n < fuel)%nat ->
     Period.in_weekdays fuel (Period a b absolute) = Some weekdays /\
     Period.in_weekend_days fuel (Period a b absolute)
       = Some weekend_days) /\
  (forall fuel,
     (n < fuel)%nat -> a < b ->
     Period.in_weekdays fuel (Period b a false) = Some (- weekdays) /\
     Period.in_weekend_days fuel (Period b a false)
       = Some (- weekend_days)) /\
  (a = b ->
   n = 1%nat /\
   weekdays = (if is_weekday a then 1 else 0) /\
   weekend_days = (if is_weekend a then 1 else 0)).
Proof.
  cbv zeta. repeat apply conj.
  - revert Ha Hb. unfold start_of_day, second_of_day, SECONDS_PER_DAY.
    intros. lia_div.
  - apply count_days_split.
  - intros fuel absolute Hfuel.
    unfold Period.in_weekdays, Period.in_weekend_days, Period.invert,
      Period.start, Period.end_.
    rewrite create_unfold. cbn.
    assert (G : (a >? b) = false) by (rewrite Z.gtb_ltb; apply Z.ltb_ge; lia).
    rewrite G, andb_false_r. cbn. rewrite Ha, Hb.
    rewrite !(count_days_loop_spec _ b _ fuel a 0 eq_refl Hfuel).
    split; f_equal; lia.
  - intros fuel Hfuel Hlt.
    unfold Period.in_weekdays, Period.in_weekend_days, Period.invert,
      Period.start, Period.end_.
    rewrite create_unfold. cbn.
    assert (G : (b >? a) = true) by (rewrite Z.gtb_ltb; apply Z.ltb_lt; lia).
    rewrite G. cbn. rewrite Ha, Hb.
    rewrite !(count_days_loop_spec _ b _ fuel a 0 eq_refl Hfuel).
    split; f_equal; lia.
  - intros <-. rewrite Z.sub_diag.
    change (Z.to_nat (0 / SECONDS_PER_DAY + 1)) with 1%nat.
    cbn [Spec.count_days]. repeat split; apply Z.add_0_r.
Qed.

(** ** Range *)

Section Range.

Variable self : Period.t.
Variable unit_ : unit.

Local Abbreviation point_at := (Spec.point_at self unit_).
Local Abbreviation state_at := (Spec.state_at self unit_).

Lemma xrange_next_state (j : nat) :
  Period.xrange_next self unit_ (state_at j) =
  if Period.xrange_op self (point_at j) (Period.end_ self)
  then Some (point_at j, state_at (S j)) else None.
Proof.
  unfold Period.xrange_next, Spec.state_at.
  cbn [Period.xr_start Period.xr_i Spec.point_at].
  rewrite Nat2Z.inj_succ, <- !Z.add_1_r. reflexivity.
Qed.

(** The generator yields the points of its walk up to the first one
    that fails the comparison with [end]. *)
Lemma xrange_list_prefix (m : nat) :
  forall (k fuel : nat),
    (forall j, (k <= j < k + m)%nat ->
               Period.xrange_op self (point_at j) (Period.end_ self) = true) ->
    Period.xrange_op self (point_at (k + m)) (Period.end_ self) = false ->
    (m < fuel)%nat ->
    Period.xrange_list fuel self unit_ (state_at k) =
    Some (map point_at (seq k m)).
Proof.
  induction m as [|m IH]; intros k fuel Hin Hout Hfuel;
    (destruct fuel as [|fuel]; [lia|]);
    cbn [Period.xrange_list]; rewrite xrange_next_state.
  - rewrite Nat.add_0_r in Hout. rewrite Hout. reflexivity.
  - rewrite (Hin k) by lia.
    rewrite (IH (S k) fuel); [reflexivity| | |lia].
    + intros j Hj. apply Hin. lia.
    + rewrite Nat.add_succ_l, <- Nat.add_succ_r. exact Hout.
Qed.

Lemma range_prefix (n fuel : nat) :
  (forall j, (j < n)%nat ->
             Period.xrange_op self (point_at j) (Period.end_ self) = true) ->
  Period.xrange_op self (point_at n) (Period.end_ self) = false ->
  (n < fuel)%nat ->
  Period.range fuel self unit_ = Some (map point_at (seq 0 n)).
Proof.
  intros Hin Hout Hfuel.
  apply (xrange_list_prefix n 0 fuel); [|exact Hout|exact Hfuel].
  intros j Hj. apply Hin. lia.
Qed.

Lemma point_at_method (j : nat) :
  point_at j =
  Period.xrange_method self unit_ (Z.of_nat j) (Period.start self).
Proof.
  destruct j as [|j]; [|reflexivity].
  unfold Spec.point_at, Period.xrange_method, subtract.
  destruct (negb (Period._absolute self) && Period.invert self);
    cbn; now rewrite add_0.
Qed.

End Range.

(** A predicate on the naturals that holds up to some point and never
    after it has a first failure. *)
Lemma first_failure (P : nat -> bool) :
  (forall j, P (S j) = true -> P j = true) ->
  forall N, P N = false ->
  exists n, (n <= N)%nat /\ forall j, P j = true <-> (j < n)%nat.
Proof.
  intros Hdown.
  assert (Hle : forall d j, P (j + d)%nat = true -> P j = true).
  { induction d as [|d IH]; intros j H.
    - now rewrite Nat.add_0_r in H.
    - apply IH, Hdown. now rewrite Nat.add_succ_r in H. }
  induction N as [|N IH]; intros HN.
  - exists O. split; [lia|]. intros j. split; [|lia].
    intros H. rewrite (Hle j O H) in HN. discriminate.
  - destruct (P N) eqn:PN.
    + exists (S N). split; [lia|]. intros j. split.
      * intros H. destruct (Nat.lt_ge_cases j (S N)) as [|Hge]; [assumption|].
        replace j with (S N + (j - S N))%nat in H by lia.
        rewrite (Hle _ _ H) in HN. discriminate.
      * intros H. apply (Hle (N - j)%nat).
        now replace (j + (N - j))%nat with N by lia.
    + destruct (IH eq_refl) as (n & Hn & Hj). exists n. split; [lia|exact Hj].
Qed.

(** The walk of [xrange] over any period: the points
    [method(unit=j)] of the origin [start], [j] from 0 on, as long as the
    comparison with [end] holds, and it stops. *)
Lemma range_walk (self : Period.t) (u : unit) :
  let step (j : nat) :=
    Period.xrange_method self u (Z.of_nat j) (Period.start self) in
  exists n : nat,
    (forall fuel, (n < fuel)%nat ->
       Period.range fuel self u = Some (map step (seq 0 n))) /\
    (forall j : nat,
       Period.xrange_op self (step j) (Period.end_ self) = true
       <-> (j < n)%nat).
Proof.
  intros step.
  destruct (first_failure
              (fun j => Period.xrange_op self (step j) (Period.end_ self)))
    with (N := Z.to_nat (Z.abs (Period.end_ self - Period.start self) + 1))
    as (n & _ & Hn).
  - intros j. unfold step, Period.xrange_method, Period.xrange_op, subtract.
    rewrite Nat2Z.inj_succ.
    destruct (negb (Period._absolute self) && Period.invert self).
    + rewrite !Z.geb_le. intros H.
      pose proof (add_lt u (Period.start self)
                    (- Z.succ (Z.of_nat j)) (- Z.of_nat j)). lia.
    + rewrite !Z.leb_le. intros H.
      pose proof (add_lt u (Period.start self)
                    (Z.of_nat j) (Z.succ (Z.of_nat j))). lia.
  - unfold step, Period.xrange_method, Period.xrange_op.
    set (N := Z.to_nat _).
    destruct (negb (Period._absolute self) && Period.invert self).
    + apply not_true_iff_false. rewrite Z.geb_le. intros H.
      pose proof (subtract_le u (Period.start self) (Z.of_nat N)). lia.
    + apply not_true_iff_false. rewrite Z.leb_le. intros H.
      pose proof (add_ge u (Period.start self) (Z.of_nat N)). lia.
  - exists n. split; [|exact Hn].
    intros fuel Hfuel.
    rewrite (range_prefix self u n fuel).
    + f_equal. apply map_ext. intros j. apply point_at_method.
    + intros j Hj. rewrite point_at_method. apply Hn, Hj.
    + rewrite point_at_method. apply not_true_iff_false.
      intros H. apply Hn in H. lia.
    + exact Hfuel.
Qed.

(** C4: the range of a period with [start <= end] by any unit is, for
    some [n > 0], the [n] points [start.add(unit=i)], [i] from 0 to
    [n - 1], each computed from the origin [start]; the point of index [i]
    is in it exactly when it is [<= end], so both [start] and a point that
    lands on [end] are in it.  The range of an inverted period that is not
    absolute walks back with [subtract] while the point is [>= end].
    The range of [Period(2023-01-01, 2023-01-05)] by days is the five
    dates from January 1 to January 5. *)
Theorem range_steps (a b : point) (absolute : bool) (u : unit) :
  let p := Period a b absolute in
  (exists n : nat,
     (0 < n)%nat /\
     (Period.start p <= Period.end_ p ->
      (forall fuel, (n < fuel)%nat ->
         Period.range fuel p u =
         Some (map (fun i => add u (Z.of_nat i) (Period.start p)) (seq 0 n))) /\
      (forall i : nat,
         (i < n)%nat <-> add u (Z.of_nat i) (Period.start p) <= Period.end_ p)) /\
     (Period.end_ p < Period.start p ->
      absolute = false /\
      (forall fuel, (n < fuel)%nat ->
         Period.range fuel p u =
         Some (map (fun i => subtract u (Z.of_nat i) (Period.start p))
                 (seq 0 n))) /\
      (forall i : nat,
         (i < n)%nat <->
         Period.end_ p <= subtract u (Z.of_nat i) (Period.start p)))) /\
  Period.range 6 (Period (date 2023 1 1) (date 2023 1 5) false) days =
  Some [date 2023 1 1; date 2023 1 2; date 2023 1 3; date 2023 1 4;
        date 2023 1 5].
Proof.
  cbv zeta. split; [|vm_compute; reflexivity].
  destruct (range_walk (Period a b absolute) u) as (n & Hrange & Hn).
  cbv zeta in Hrange, Hn.
  unfold Period.xrange_method, Period.xrange_op, Period.invert,
    Period.start, Period.end_ in *.
  rewrite create_unfold in *. cbn [Period._start Period._end Period._invert
                                     Period._absolute] in *.
  exists n.
  destruct (Z.gtb_spec a b) as [Hgt|Hle], absolute; cbn [andb negb] in *.
  - split; [apply Hn; rewrite add_0; apply Z.leb_le; lia|].
    split; [intros _|intros H; lia].
    split; [exact Hrange|]. intros i. rewrite <- Hn, Z.leb_le. reflexivity.
  - split; [apply Hn; unfold subtract; cbn; rewrite add_0; apply Z.geb_le; lia|].
    split; [intros H; lia|intros _].
    split; [reflexivity|].
    split; [exact Hrange|]. intros i. rewrite <- Hn, Z.geb_le. reflexivity.
  - split; [apply Hn; rewrite add_0; apply Z.leb_le; lia|].
    split; [intros _|intros H; lia].
    split; [exact Hrange|]. intros i. rewrite <- Hn, Z.leb_le. reflexivity.
  - split; [apply Hn; rewrite add_0; apply Z.leb_le; lia|].
    split; [intros _|intros H; lia].
    split; [exact Hrange|]. intros i. rewrite <- Hn, Z.leb_le. reflexivity.
Qed.

End Properties.

(** ** Examples

    The theorems at dates of 2023, with the decomposer [day_delta]. *)

(** C1 as it is written fails for equal endpoints: [Period(a, a)] is the
    reversed period of itself and is not inverted. *)
Lemma normalization_equal_endpoints :
  jan 1 <= jan 1 /\
  Period.invert (Period.create Dateutil.day_delta (jan 1) (jan 1) false)
  <> true.
Proof.
  split; [apply Z.leb_le; reflexivity | vm_compute; discriminate].
Qed.

(** The endpoints 2023-01-01 and 2023-01-05 in both orders. *)
Lemma constructor_normalization_witness :
  jan 1 <= jan 5 /\
  Period.invert (Period.create Dateutil.day_delta (jan 1) (jan 5) false)
    = false /\
  Period.invert (Period.create Dateutil.day_delta (jan 5) (jan 1) false)
    = true /\
  Period.start (Period.create Dateutil.day_delta (jan 5) (jan 1) true)
    = jan 1 /\
  Period.end_ (Period.create Dateutil.day_delta (jan 5) (jan 1) true)
    = jan 5.
Proof.
  assert (H : jan 1 <= jan 5) by (apply Z.leb_le; reflexivity).
  destruct (constructor_normalization Dateutil.day_delta (jan 1) (jan 5) H)
    as (H1 & H2 & H3 & H4 & _).
  split; [exact H|].
  split; [apply H1|].
  split; [rewrite H2; reflexivity|].
  split; [exact H3 | exact H4].
Defined.

(** C2 as it is written fails for a reversed absolute period: the stored
    total is four days, not minus four days. *)
Lemma total_seconds_absolute_reversed :
  Period.total_seconds
    (Period.create Dateutil.day_delta (jan 5) (jan 1) true)
  = 4 * SECONDS_PER_DAY /\
  Period.total_seconds
    (Period.create Dateutil.day_delta (jan 5) (jan 1) true)
  <> jan 1 - jan 5.
Proof.
  split; [reflexivity | vm_compute; discriminate].
Qed.

(** 2023-06-01 is a Thursday: the seven days to 2023-06-07 hold five
    weekdays and the two days of one weekend. *)
Lemma weekday_counting_witness :
  jun 1 <= jun 7 /\
  Period.in_weekdays 8
    (Period.create Dateutil.day_delta (jun 1) (jun 7) false) = Some 5 /\
  Period.in_weekend_days 8
    (Period.create Dateutil.day_delta (jun 1) (jun 7) false) = Some 2 /\
  Period.in_weekdays 8
    (Period.create Dateutil.day_delta (jun 7) (jun 1) false) = Some (-5) /\
  Period.in_weekend_days 8
    (Period.create Dateutil.day_delta (jun 7) (jun 1) false) = Some (-2).
Proof.
  assert (H : jun 1 <= jun 7) by (apply Z.leb_le; reflexivity).
  destruct (weekday_counting Dateutil.day_delta (jun 1) (jun 7) H
              eq_refl eq_refl) as (_ & _ & Hforward & Hback & _).
  assert (Hfuel : (Z.to_nat ((jun 7 - jun 1) / SECONDS_PER_DAY + 1) < 8)%nat)
    by (apply Nat.ltb_lt; reflexivity).
  assert (Hlt : jun 1 < jun 7) by (apply Z.ltb_lt; reflexivity).
  split; [exact H|].
  split; [exact (proj1 (Hforward 8%nat false Hfuel))|].
  split; [exact (proj2 (Hforward 8%nat false Hfuel))|].
  split; [exact (proj1 (Hback 8%nat Hfuel Hlt))
         | exact (proj2 (Hback 8%nat Hfuel Hlt))].
Defined.

(** The period of the single day 2023-06-01, a Thursday. *)
Example single_weekday :
  Period.in_weekdays 2
    (Period.create Dateutil.day_delta (jun 1) (jun 1) false) = Some 1 /\
  Period.in_weekend_days 2
    (Period.create Dateutil.day_delta (jun 1) (jun 1) false) = Some 0.
Proof. split; reflexivity. Qed.

(** Two absolute periods intersect in a period that is not absolute. *)
Lemma intersect_not_absolute_witness :
  Period.intersect Dateutil.day_delta
    (Period.create Dateutil.day_delta (jan 1) (jan 5) true)
    [Period.create Dateutil.day_delta (jan 10) (jan 3) true]
  = Some (Period.create Dateutil.day_delta (jan 3) (jan 5) false) /\
  Period._absolute (Period.create Dateutil.day_delta (jan 3) (jan 5) false)
  = false.
Proof.
  split; [reflexivity|].
  apply (intersect_not_absolute Dateutil.day_delta
           (Period.create Dateutil.day_delta (jan 1) (jan 5) true)
           [Period.create Dateutil.day_delta (jan 10) (jan 3) true]).
  reflexivity.
Defined.

(** A period that starts where the receiver ends intersects it in the
    period of that one point. *)
Lemma intersect_ordered_witness :
  Period.start (Period.create Dateutil.day_delta (jan 1) (jan 5) false)
  <= Period.end_ (Period.create Dateutil.day_delta (jan 1) (jan 5) false) /\
  Period.intersect Dateutil.day_delta
    (Period.create Dateutil.day_delta (jan 1) (jan 5) false)
    [Period.create Dateutil.day_delta (jan 5) (jan 10) false]
  = Some (Period.create Dateutil.day_delta (jan 5) (jan 5) false).
Proof.
  assert (H : Period.start
                (Period.create Dateutil.day_delta (jan 1) (jan 5) false)
              <= Period.end_
                   (Period.create Dateutil.day_delta (jan 1) (jan 5) false))
    by (apply Z.leb_le; reflexivity).
  split; [exact H|].
  destruct (intersect_ordered Dateutil.day_delta _ H) as (_ & _ & Htouch).
  apply (Htouch (Period.create Dateutil.day_delta (jan 5) (jan 10) false)).
  - apply Z.leb_le. reflexivity.
  - reflexivity.
Defined.

(** Disjoint periods do not intersect. *)
Example intersect_disjoint :
  Period.intersect Dateutil.day_delta
    (Period.create Dateutil.day_delta (jan 1) (jan 5) false)
    [Period.create Dateutil.day_delta (jan 10) (jan 15) false]
  = None.
Proof. reflexivity. Qed.

(** Months are added from the origin, the day clamped to the month: the
    range of [2023-01-31 .. 2023-05-31] by months. *)
Example range_months_from_origin :
  Period.range 6
    (Period.create Dateutil.day_delta (jan 31) (date 2023 5 31) false)
    months
  = Some [date 2023 1 31; date 2023 2 28; date 2023 3 31; date 2023 4 30;
          date 2023 5 31].
Proof. vm_compute. reflexivity. Qed.

(** An inverted period ranges backwards. *)
Example range_backwards :
  Period.range 6
    (Period.create Dateutil.day_delta (jan 5) (jan 1) false) days
  = Some [jan 5; jan 4; jan 3; jan 2; jan 1].
Proof. vm_compute. reflexivity. Qed.

(** ** Further properties of the operations *)

Section Further.

Variable relativedelta : point -> point -> Dateutil.relativedelta.

Local Abbreviation Period := (Period.create relativedelta).
Local Abbreviation intersect := (Period.intersect relativedelta).
Local Abbreviation neg := (Period.__neg__ relativedelta).
Local Abbreviation abs := (Period.__abs__ relativedelta).

(** X1: the state [_getstate] returns is the triple of arguments the
    period was built from, in the order they were supplied, whether or not
    the constructor swapped the endpoints. *)
Theorem getstate_arguments (a b : point) (absolute : bool) :
  Period._getstate (Period a b absolute) = (a, b, absolute).
Proof.
  unfold Period._getstate, Period.start, Period.end_.
  rewrite create_unfold. cbn.
  destruct (a >? b), absolute; reflexivity.
Qed.

(** X2: negating a period that is not absolute builds the period of the
    reversed arguments: the stored endpoints change places, the flat
    interval changes sign, the inversion flips unless the endpoints are
    equal, and negating twice gives the period back. *)
Theorem neg_not_absolute (a b : point) :
  let p := Period a b false in
  neg p = Period b a false /\
  neg (neg p) = p /\
  Period.start (neg p) = Period.end_ p /\
  Period.end_ (neg p) = Period.start p /\
  Interval.seconds (Period.as_interval (neg p))
    = - Interval.seconds (Period.as_interval p) /\
  Period.invert (neg p) = (a <? b) /\
  Period.invert p = (b <? a).
Proof.
  cbv zeta. unfold Period.__neg__, Period.as_interval, Period.start,
    Period.end_, Period.invert.
  rewrite (create_unfold relativedelta a b false). cbn.
  rewrite andb_false_r.
  rewrite (create_unfold relativedelta b a false). cbn.
  rewrite andb_false_r.
  rewrite (create_unfold relativedelta a b false). cbn.
  rewrite andb_false_r, !Z.gtb_ltb.
  repeat split. lia.
Qed.

(** X3: negating a period built with [absolute=true] leaves its flat
    interval as it is, never negative; the negated period is marked
    inverted unless the endpoints are equal, and negating again changes
    nothing more. *)
Theorem neg_absolute (a b : point) :
  let p := Period a b true in
  Interval.seconds (Period.as_interval (neg p))
    = Interval.seconds (Period.as_interval p) /\
  0 <= Interval.seconds (Period.as_interval (neg p)) /\
  Period.invert (neg p) = negb (a =? b) /\
  neg (neg p) = neg p.
Proof.
  cbv zeta. unfold Period.__neg__, Period.as_interval, Period.start,
    Period.end_, Period.invert.
  rewrite (create_unfold relativedelta a b true). cbn.
  rewrite !andb_true_r.
  destruct (Z.gtb_spec a b) as [Hgt|Hle].
  - rewrite (create_unfold relativedelta a b true). cbn.
    destruct (Z.gtb_spec a b) as [_|?]; [|lia]. cbn.
    rewrite (create_unfold relativedelta a b true). cbn.
    destruct (Z.gtb_spec a b) as [_|?]; [|lia]. cbn.
    destruct (Z.eqb_spec a b); [lia|]. repeat split. lia.
  - rewrite (create_unfold relativedelta b a true). cbn.
    destruct (Z.gtb_spec b a) as [Hgt|Hle'].
    + cbn. rewrite (create_unfold relativedelta b a true). cbn.
      destruct (Z.gtb_spec b a) as [_|?]; [|lia]. cbn.
      destruct (Z.eqb_spec a b); [lia|]. repeat split. lia.
    + assert (a = b) by lia. subst b. cbn.
      rewrite (create_unfold relativedelta a a true). cbn.
      destruct (Z.gtb_spec a a) as [?|_]; [lia|]. cbn.
      rewrite Z.eqb_refl. repeat split; lia.
Qed.

(** X4: the absolute value of a period is absolute, runs from the earlier
    endpoint to the later one, and its flat interval is the magnitude of
    the period's; it is marked inverted only when the period was inverted
    and not absolute, so the absolute value of a period that is already
    absolute is never marked inverted. *)
Theorem abs_properties (a b : point) (absolute : bool) :
  let p := Period a b absolute in
  Period._absolute (abs p) = true /\
  Period.start (abs p) = Z.min a b /\
  Period.end_ (abs p) = Z.max a b /\
  Interval.seconds (Period.as_interval (abs p))
    = Z.abs (Interval.seconds (Period.as_interval p)) /\
  Period.invert (abs p) = negb absolute && (a >? b).
Proof.
  cbv zeta. unfold Period.__abs__, Period.as_interval, Period.start,
    Period.end_, Period.invert.
  rewrite (create_unfold relativedelta a b absolute). cbn.
  destruct (Z.gtb_spec a b) as [Hgt|Hle], absolute; cbn;
    rewrite create_unfold; cbn;
    match goal with
    | |- context [?x >? ?y] => destruct (Z.gtb_spec x y)
    end; cbn; repeat split; lia.
Qed.

(** X5: the flat interval of a period is [end - start] of the stored
    endpoints; it is negative exactly when the period is inverted and not
    absolute, and its magnitude is the distance of the two arguments. *)
Theorem as_interval_sign (a b : point) (absolute : bool) :
  let p := Period a b absolute in
  Interval.seconds (Period.as_interval p) = Period.end_ p - Period.start p /\
  (Interval.seconds (Period.as_interval p) < 0 <->
   Period.invert p = true /\ Period._absolute p = false) /\
  Z.abs (Interval.seconds (Period.as_interval p)) = Z.abs (b - a).
Proof.
  cbv zeta. unfold Period.as_interval, Period.start, Period.end_,
    Period.invert.
  rewrite create_unfold. cbn.
  destruct (Z.gtb_spec a b) as [Hgt|Hle], absolute; cbn;
    repeat split; try lia; try congruence; intros; try lia.
Qed.

(** *** Intersection *)

Lemma maximum_ge (x : Z) (l : list Z) :
  x <= Spec.maximum x l /\ forall y, In y l -> y <= Spec.maximum x l.
Proof.
  unfold Spec.maximum. induction l as [|z l [IH1 IH2]]; cbn.
  - split; [lia|]. intros y [].
  - split; [lia|]. intros y [<-|Hy]; [lia|]. specialize (IH2 y Hy). lia.
Qed.

Lemma minimum_le (x : Z) (l : list Z) :
  Spec.minimum x l <= x /\ forall y, In y l -> Spec.minimum x l <= y.
Proof.
  unfold Spec.minimum. induction l as [|z l [IH1 IH2]]; cbn.
  - split; [lia|]. intros y [].
  - split; [lia|]. intros y [<-|Hy]; [lia|]. specialize (IH2 y Hy). lia.
Qed.

Lemma maximum_permutation (x : Z) (l l' : list Z) :
  Permutation l l' -> Spec.maximum x l = Spec.maximum x l'.
Proof.
  unfold Spec.maximum.
  induction 1 as [|y l l' _ IH|y z l|l l' l'' _ IH1 _ IH2]; cbn;
    [reflexivity|rewrite IH; reflexivity|lia|congruence].
Qed.

Lemma minimum_permutation (x : Z) (l l' : list Z) :
  Permutation l l' -> Spec.minimum x l = Spec.minimum x l'.
Proof.
  unfold Spec.minimum.
  induction 1 as [|y l l' _ IH|y z l|l l' l'' _ IH1 _ IH2]; cbn;
    [reflexivity|rewrite IH; reflexivity|lia|congruence].
Qed.

(** Periods that overlap the running bounds and one another are all
    kept. *)
Lemma kept_all (periods : list Period.t) :
  forall s e : point,
    (forall q, In q periods -> s <= Period.end_ q /\ Period.start q <= e) ->
    (forall q q', In q periods -> In q' periods ->
                  Period.start q <= Period.end_ q') ->
    Spec.kept s e periods = periods.
Proof.
  induction periods as [|p periods IH]; intros s e H1 H2; [reflexivity|].
  cbn [Spec.kept].
  destruct (H1 p (or_introl eq_refl)) as [Hs He].
  destruct (Z.ltb_spec (Period.end_ p) s) as [?|_]; [lia|].
  destruct (Z.gtb_spec (Period.start p) e) as [?|_]; [lia|].
  cbn [orb]. f_equal. apply IH.
  - intros q Hq. destruct (H1 q (or_intror Hq)) as [Hs' He'].
    pose proof (H2 p q (or_introl eq_refl) (or_intror Hq)).
    pose proof (H2 q p (or_intror Hq) (or_introl eq_refl)). split; lia.
  - intros q q' Hq Hq'. apply H2; right; assumption.
Qed.

(** X6: a period [intersect] returns lies within the receiver and within
    every supplied period that was kept: the intersection never reaches
    outside the receiver, and the intersection of an inverted receiver is
    inverted. *)
Theorem intersect_within_receiver (self : Period.t)
    (periods : list Period.t) (r : Period.t)
    (Hr : intersect self periods = Some r) :
  Period.start self <= Period.start r /\
  Period.end_ r <= Period.end_ self /\
  (forall q,
     In q (Spec.kept (Period.start self) (Period.end_ self) periods) ->
     Period.start q <= Period.start r /\ Period.end_ r <= Period.end_ q) /\
  (Period.end_ self < Period.start self -> Period.invert r = true).
Proof.
  rewrite intersect_unfold in Hr.
  destruct (Spec.kept _ _ periods) as [|k ks] eqn:K; [discriminate Hr|].
  injection Hr as <-.
  match goal with
  | |- Period.start _ <= Period.start (Period ?x ?y false) /\ _ =>
      destruct (create_not_absolute relativedelta x y) as (-> & -> & -> & _)
  end.
  destruct (maximum_ge (Period.start self) (map Period.start (k :: ks)))
    as [M1 M2].
  destruct (minimum_le (Period.end_ self) (map Period.end_ (k :: ks)))
    as [N1 N2].
  split; [exact M1|]. split; [exact N1|]. split.
  - intros q Hq. split; [apply M2 | apply N2]; apply in_map; exact Hq.
  - intros Hinv. rewrite Z.gtb_ltb. apply Z.ltb_lt.
    apply Z.le_lt_trans with (Period.end_ self); [exact N1|].
    apply Z.lt_le_trans with (Period.start self); [exact Hinv|exact M1].
Qed.

(** X7: intersecting in two calls is intersecting in one: when the
    receiver intersects the first periods in [r], its intersection with
    the first and then the second periods is the intersection of [r] with
    the second ones, and [r] itself when [r] intersects none of them. *)
Theorem intersect_chain (self : Period.t) (ps qs : list Period.t)
    (r : Period.t) (Hr : intersect self ps = Some r) :
  intersect self (ps ++ qs) =
  match intersect r qs with
  | Some r' => Some r'
  | None => Some r
  end.
Proof.
  unfold Period.intersect in *. rewrite fold_left_app.
  destruct (fold_left Period.intersect_step ps
              (Period.start self, Period.end_ self, false))
    as [[s e] h].
  destruct h; [|discriminate Hr]. cbn in Hr. injection Hr as <-.
  destruct (create_not_absolute relativedelta s e) as (-> & -> & _).
  rewrite !fold_intersect_step.
  destruct (Spec.kept s e qs); reflexivity.
Qed.

(** X8: when every supplied period overlaps the receiver and every other
    supplied period, none is skipped, the result runs from the largest
    start to the smallest end, and the order of the supplied periods does
    not matter. *)
Theorem intersect_overlapping (self : Period.t) (ps ps' : list Period.t)
    (Hself : forall q, In q ps ->
               Period.start self <= Period.end_ q /\
               Period.start q <= Period.end_ self)
    (Hall : forall q q', In q ps -> In q' ps ->
              Period.start q <= Period.end_ q')
    (Hperm : Permutation ps ps') :
  Spec.kept (Period.start self) (Period.end_ self) ps = ps /\
  intersect self ps' = intersect self ps /\
  (ps <> [] ->
   intersect self ps =
   Some (Period
           (Spec.maximum (Period.start self) (map Period.start ps))
           (Spec.minimum (Period.end_ self) (map Period.end_ ps))
           false)).
Proof.
  assert (K : Spec.kept (Period.start self) (Period.end_ self) ps = ps)
    by (apply kept_all; assumption).
  assert (K' : Spec.kept (Period.start self) (Period.end_ self) ps' = ps').
  { apply kept_all.
    - intros q Hq. apply Hself. apply (Permutation_in q (Permutation_sym Hperm) Hq).
    - intros q q' Hq Hq'.
      apply Hall; eapply Permutation_in; try apply Permutation_sym;
        eassumption. }
  split; [exact K|].
  rewrite !intersect_unfold, K, K'. split.
  - pose proof (maximum_permutation (Period.start self) _ _
                  (Permutation_map Period.start Hperm)) as Emax.
    pose proof (minimum_permutation (Period.end_ self) _ _
                  (Permutation_map Period.end_ Hperm)) as Emin.
    destruct ps as [|p ps].
    + apply Permutation_nil in Hperm. subst ps'. reflexivity.
    + destruct ps' as [|p' ps''].
      * apply Permutation_sym, Permutation_nil in Hperm. discriminate Hperm.
      * cbv beta iota zeta. rewrite Emax, Emin. reflexivity.
  - intros Hne. destruct ps; [contradiction|reflexivity].
Qed.

(** *** Weekdays for endpoints with a time of day *)

Lemma day_span (x y : point) :
  (start_of_day y - start_of_day x) / SECONDS_PER_DAY
  = day_number y - day_number x.
Proof.
  unfold start_of_day, second_of_day, day_number, SECONDS_PER_DAY. lia_div.
Qed.

Lemma count_days_bounds (test : point -> bool) (n : nat) :
  forall s : point, 0 <= Spec.count_days test n s <= Z.of_nat n.
Proof.
  induction n as [|n IH]; intros s; [cbn; lia|].
  cbn [Spec.count_days]. specialize (IH (s + SECONDS_PER_DAY)).
  destruct (test s); lia.
Qed.

(** X9: for any two endpoints, with or without a time of day,
    [in_weekdays] and [in_weekend_days] count every calendar day from the
    day of the earlier endpoint through the day of the later one, days
    covered in part included; the count is negated exactly when the period
    is inverted and not absolute, and the loops end for every period. *)
Theorem weekdays_any_endpoints (a b : point) (absolute : bool) :
  let lo := Z.min a b in
  let hi := Z.max a b in
  let n := Z.to_nat (day_number hi - day_number lo + 1) in
  let sign := if negb absolute && (a >? b) then -1 else 1 in
  let weekdays := Spec.count_days is_weekday n (start_of_day lo) in
  let weekend_days := Spec.count_days is_weekend n (start_of_day lo) in
  (0 < n)%nat /\
  0 <= weekdays /\ 0 <= weekend_days /\
  weekdays + weekend_days = Z.of_nat n /\
  forall fuel,
    (n < fuel)%nat ->
    Period.in_weekdays fuel (Period a b absolute) = Some (weekdays * sign) /\
    Period.in_weekend_days fuel (Period a b absolute)
      = Some (weekend_days * sign).
Proof.
  cbv zeta.
  assert (Hmono : day_number (Z.min a b) <= day_number (Z.max a b)).
  { unfold day_number, SECONDS_PER_DAY. apply Z.div_le_mono; lia. }
  split; [lia|].
  split; [apply count_days_bounds|].
  split; [apply count_days_bounds|].
  split; [apply count_days_split|].
  intros fuel Hfuel.
  unfold Period.in_weekdays, Period.in_weekend_days, Period.invert,
    Period.start, Period.end_.
  rewrite create_unfold. cbn.
  assert (Hloop : forall test,
             Period.count_days_loop test fuel
               (start_of_day (Z.min a b)) (start_of_day (Z.max a b)) 0
             = Some (Spec.count_days test
                       (Z.to_nat (day_number (Z.max a b)
                                  - day_number (Z.min a b) + 1))
                       (start_of_day (Z.min a b)))).
  { intros test.
    rewrite (count_days_loop_spec relativedelta test _ _ fuel _ 0 eq_refl).
    - rewrite day_span. reflexivity.
    - rewrite day_span. exact Hfuel. }
  destruct (Z.gtb_spec a b) as [Hgt|Hle], absolute; cbn;
    rewrite ?Z.min_r, ?Z.max_l in * by lia;
    rewrite ?Z.min_l, ?Z.max_r in * by lia;
    rewrite !Hloop; split; reflexivity.
Qed.

(** *** Ranges *)

(** The range of a period built by the constructor, in the terms of its
    arguments. *)
Lemma range_created (a b : point) (absolute : bool) (u : unit) :
  let p := Period a b absolute in
  let back := negb absolute && (a >? b) in
  let step (j : nat) :=
    if back then subtract u (Z.of_nat j) (Period.start p)
    else add u (Z.of_nat j) (Period.start p) in
  exists n : nat,
    (0 < n)%nat /\
    (forall fuel, (n < fuel)%nat ->
       Period.range fuel p u = Some (map step (seq 0 n))) /\
    (forall j : nat,
       (j < n)%nat <->
       if back then Period.end_ p <= step j else step j <= Period.end_ p) /\
    (if back then Period.end_ p < Period.start p
     else Period.start p <= Period.end_ p).
Proof.
  cbv zeta.
  destruct (range_walk (Period a b absolute) u) as (n & Hrange & Hn).
  cbv zeta in Hrange, Hn.
  unfold Period.xrange_method, Period.xrange_op, Period.invert,
    Period.start, Period.end_ in *.
  rewrite create_unfold in *.
  cbn [Period._start Period._end Period._invert Period._absolute] in *.
  exists n.
  destruct (Z.gtb_spec a b) as [Hgt|Hle], absolute; cbn [andb negb] in *.
  - split; [apply Hn; rewrite add_0; apply Z.leb_le; lia|].
    split; [exact Hrange|]. split; [|lia].
    intros j. rewrite <- Hn, Z.leb_le. reflexivity.
  - split; [apply Hn; unfold subtract; cbn; rewrite add_0; apply Z.geb_le; lia|].
    split; [exact Hrange|]. split; [|lia].
    intros j. rewrite <- Hn, Z.geb_le. reflexivity.
  - split; [apply Hn; rewrite add_0; apply Z.leb_le; lia|].
    split; [exact Hrange|]. split; [|lia].
    intros j. rewrite <- Hn, Z.leb_le. reflexivity.
  - split; [apply Hn; rewrite add_0; apply Z.leb_le; lia|].
    split; [exact Hrange|]. split; [|lia].
    intros j. rewrite <- Hn, Z.leb_le. reflexivity.
Qed.

Lemma sorted_map_seq (R : Z -> Z -> Prop) (f : nat -> Z) :
  (forall i j, (i < j)%nat -> R (f i) (f j)) ->
  forall n k, StronglySorted R (map f (seq k n)).
Proof.
  intros Hf. induction n as [|n IH]; intros k; cbn; constructor.
  - apply IH.
  - apply Forall_forall. intros x Hx.
    apply in_map_iff in Hx. destruct Hx as (j & <- & Hj).
    apply in_seq in Hj. apply Hf. lia.
Qed.

(** X10: a range is in strict order and within the period: its first
    point is [start], its points grow strictly and stay [<= end], or, for
    an inverted period that is not absolute, fall strictly and stay
    [>= end]; no point comes twice.  Every fuel above the number of points
    gives this list. *)
Theorem range_sorted (a b : point) (absolute : bool) (u : unit) :
  let p := Period a b absolute in
  exists (n : nat) (l : list point),
    (forall fuel, (n < fuel)%nat -> Period.range fuel p u = Some l) /\
    length l = n /\
    hd_error l = Some (Period.start p) /\
    NoDup l /\
    if negb absolute && (a >? b)
    then StronglySorted Z.gt l /\
         Forall (fun x => Period.end_ p <= x <= Period.start p) l
    else StronglySorted Z.lt l /\
         Forall (fun x => Period.start p <= x <= Period.end_ p) l.
Proof.
  cbv zeta.
  destruct (range_created a b absolute u) as (n & Hpos & Hrange & Hn & _).
  cbv zeta in Hrange, Hn.
  set (p := Period a b absolute) in *.
  set (back := negb absolute && (a >? b)) in *.
  set (step := fun j : nat =>
                 if back then subtract u (Z.of_nat j) (Period.start p)
                 else add u (Z.of_nat j) (Period.start p)) in *.
  exists n, (map step (seq 0 n)).
  split; [exact Hrange|].
  split; [now rewrite length_map, length_seq|].
  split.
  { destruct n as [|n]; [lia|]. cbn. f_equal. unfold step, subtract.
    destruct back; cbn; apply add_0. }
  assert (Hinj : forall i j, (i < j)%nat -> step i <> step j).
  { intros i j Hij. unfold step, subtract. destruct back.
    - pose proof (add_lt u (Period.start p) (- Z.of_nat j) (- Z.of_nat i)).
      lia.
    - pose proof (add_lt u (Period.start p) (Z.of_nat i) (Z.of_nat j)).
      lia. }
  split.
  { apply Finite.Injective_map_NoDup_in; [|apply seq_NoDup].
    intros i j _ _ E.
    destruct (Nat.lt_trichotomy i j) as [H|[H|H]]; [|exact H|].
    - exfalso. exact (Hinj i j H E).
    - exfalso. exact (Hinj j i H (eq_sym E)). }
  unfold step in *. clear step. destruct back.
  - split.
    + apply sorted_map_seq. intros i j Hij. unfold subtract.
      pose proof (add_lt u (Period.start p) (- Z.of_nat j) (- Z.of_nat i)).
      lia.
    + apply Forall_forall. intros x Hx.
      apply in_map_iff in Hx. destruct Hx as (j & <- & Hj).
      apply in_seq in Hj. split; [apply Hn; lia|].
      pose proof (subtract_le u (Period.start p) (Z.of_nat j)). lia.
  - split.
    + apply sorted_map_seq. intros i j Hij. apply add_lt. lia.
    + apply Forall_forall. intros x Hx.
      apply in_map_iff in Hx. destruct Hx as (j & <- & Hj).
      apply in_seq in Hj. split; [|apply Hn; lia].
      pose proof (add_ge u (Period.start p) (Z.of_nat j)). lia.
Qed.

Lemma add_fixed (u : unit) (len n : Z) (t : point) :
  unit_seconds u = Some len -> 0 < len /\ add u n t = t + n * len.
Proof.
  destruct u; cbn; intros [= <-]; split; reflexivity || lia.
Qed.

(** Steps of a fixed length from [s] that stay [<= e]: their number. *)
Lemma fixed_count (len s e : Z) (n : nat) :
  0 < len -> (0 < n)%nat ->
  (forall j : nat, (j < n)%nat <-> s + Z.of_nat j * len <= e) ->
  Z.of_nat n = (e - s) / len + 1.
Proof.
  intros Hlen Hpos Hn.
  assert (A : s + Z.of_nat (Nat.pred n) * len <= e) by (apply Hn; lia).
  assert (B : ~ s + Z.of_nat n * len <= e) by (rewrite <- Hn; lia).
  assert (L : Z.of_nat n - 1 <= (e - s) / len).
  { apply Z.div_le_lower_bound; [exact Hlen|].
    replace (Z.of_nat n - 1) with (Z.of_nat (Nat.pred n)) by lia. lia. }
  assert (U : (e - s) / len < Z.of_nat n).
  { apply Z.div_lt_upper_bound; [exact Hlen|]. lia. }
  lia.
Qed.

(** The range by a unit of fixed length, in closed form. *)
Lemma range_fixed (a b : point) (absolute : bool) (u : unit) (len : Z) :
  unit_seconds u = Some len ->
  let p := Period a b absolute in
  let sign := if negb absolute && (a >? b) then -1 else 1 in
  let n := Z.to_nat (Z.abs (Period.end_ p - Period.start p) / len + 1) in
  0 < len /\
  0 <= sign * (Period.end_ p - Period.start p) /\
  forall fuel, (n < fuel)%nat ->
    Period.range fuel p u =
    Some (map (fun j => Period.start p + sign * (Z.of_nat j * len))
            (seq 0 n)).
Proof.
  intros Hu. cbv zeta.
  destruct (add_fixed u len 0 0 Hu) as [Hlen _].
  destruct (range_created a b absolute u) as (n & Hpos & Hrange & Hn & Hdir).
  cbv zeta in Hrange, Hn, Hdir.
  set (p := Period a b absolute) in *.
  destruct (negb absolute && (a >? b)).
  - assert (En : Z.of_nat n
                 = (- Period.end_ p - - Period.start p) / len + 1).
    { apply fixed_count; [exact Hlen|exact Hpos|].
      intros j. rewrite Hn. unfold subtract.
      rewrite (proj2 (add_fixed u len _ _ Hu)). lia. }
    split; [exact Hlen|]. split; [lia|].
    replace (Z.abs (Period.end_ p - Period.start p))
      with (- Period.end_ p - - Period.start p) by lia.
    rewrite <- En, Nat2Z.id. intros fuel Hfuel.
    rewrite (Hrange fuel Hfuel). f_equal. apply map_ext. intros j.
    unfold subtract. rewrite (proj2 (add_fixed u len _ _ Hu)). lia.
  - assert (En : Z.of_nat n = (Period.end_ p - Period.start p) / len + 1).
    { apply fixed_count; [exact Hlen|exact Hpos|].
      intros j. rewrite Hn.
      rewrite (proj2 (add_fixed u len _ _ Hu)). lia. }
    split; [exact Hlen|]. split; [lia|].
    replace (Z.abs (Period.end_ p - Period.start p))
      with (Period.end_ p - Period.start p) by lia.
    rewrite <- En, Nat2Z.id. intros fuel Hfuel.
    rewrite (Hrange fuel Hfuel). f_equal. apply map_ext. intros j.
    rewrite (proj2 (add_fixed u len _ _ Hu)). lia.
Qed.

(** [end] is a point of the walk exactly when the span is a whole number
    of steps. *)
Lemma end_on_step (s e sign len : Z) :
  0 < len -> (sign = 1 \/ sign = -1) -> 0 <= sign * (e - s) ->
  In e (map (fun j => s + sign * (Z.of_nat j * len))
          (seq 0 (Z.to_nat (Z.abs (e - s) / len + 1))))
  <-> (e - s) mod len = 0.
Proof.
  intros Hlen Hsign Hdir. rewrite in_map_iff. split.
  - intros (j & Ej & _).
    replace (e - s) with (sign * Z.of_nat j * len) by lia.
    apply Z.mod_mul. lia.
  - intros Hmod.
    assert (Hq : 0 <= Z.abs (e - s) / len)
      by (apply Z.div_pos; lia).
    assert (Habs : Z.abs (e - s) = len * (Z.abs (e - s) / len)).
    { apply Z.div_exact; [lia|].
      destruct Hsign as [->| ->].
      - replace (Z.abs (e - s)) with (e - s) by lia. exact Hmod.
      - replace (Z.abs (e - s)) with (- (e - s)) by lia.
        apply Z.mod_opp_l_z; [lia|exact Hmod]. }
    exists (Z.to_nat (Z.abs (e - s) / len)). split.
    + rewrite Z2Nat.id by exact Hq.
      destruct Hsign as [->| ->]; lia.
    + apply in_seq. lia.
Qed.

(** X11: the range by a unit of fixed length (weeks, days, hours,
    minutes, seconds) has [|end - start| / length + 1] points, the quotient
    rounded down, and [end] is one of them exactly when the span is a
    whole number of units. *)
Theorem range_fixed_unit (a b : point) (absolute : bool) (u : unit)
    (len : Z) (Hu : unit_seconds u = Some len) :
  let p := Period a b absolute in
  let n := Z.to_nat (Z.abs (Period.end_ p - Period.start p) / len + 1) in
  forall fuel, (n < fuel)%nat ->
    exists l,
      Period.range fuel p u = Some l /\
      length l = n /\
      (In (Period.end_ p) l <->
       (Period.end_ p - Period.start p) mod len = 0).
Proof.
  cbv zeta. intros fuel Hfuel.
  destruct (range_fixed a b absolute u len Hu) as (Hlen & Hdir & Hrange).
  eexists. split; [apply Hrange; exact Hfuel|].
  split; [now rewrite length_map, length_seq|].
  apply end_on_step; [exact Hlen| |exact Hdir].
  destruct (negb absolute && (a >? b)); auto.
Qed.

Lemma abs_days (t : Z) :
  Z.abs (BaseInterval._days t) = Z.abs t / SECONDS_PER_DAY.
Proof.
  unfold BaseInterval._days, BaseInterval._sign, SECONDS_PER_DAY.
  assert (0 <= Z.abs t / 86400) by (apply Z.div_pos; lia).
  destruct (t <? 0); lia.
Qed.

(** X12: iterating over a period walks it by days: the iteration yields
    one point more than the magnitude of [days], and [end] is one of them
    exactly when the period is a whole number of days. *)
Theorem iter_days (a b : point) (absolute : bool) :
  let p := Period a b absolute in
  let n := Z.to_nat (Z.abs (Period.days p) + 1) in
  forall fuel, (n < fuel)%nat ->
    exists l,
      Period.list_iter fuel p = Some l /\
      length l = n /\
      hd_error l = Some (Period.start p) /\
      (In (Period.end_ p) l <->
       Period.total_seconds p mod SECONDS_PER_DAY = 0).
Proof.
  cbv zeta. intros fuel.
  destruct (range_fixed a b absolute Calendar.days SECONDS_PER_DAY eq_refl)
    as (Hlen & Hdir & Hrange).
  assert (Etotal : Period.total_seconds (Period a b absolute)
                   = Period.end_ (Period a b absolute)
                     - Period.start (Period a b absolute)).
  { unfold Period.start, Period.end_. rewrite create_unfold. cbn.
    destruct (a >? b), absolute; reflexivity. }
  unfold Period.days. rewrite abs_days, Etotal. intros Hfuel.
  eexists. split; [apply Hrange; exact Hfuel|].
  split; [now rewrite length_map, length_seq|].
  split.
  - set (k := Z.to_nat _).
    assert (Hk : (0 < k)%nat).
    { unfold k.
      assert (0 <= Z.abs (Period.end_ (Period a b absolute)
                          - Period.start (Period a b absolute))
                   / SECONDS_PER_DAY) by (apply Z.div_pos; lia).
      lia. }
    destruct k as [|k]; [lia|]. cbn [seq map hd_error]. f_equal. lia.
  - apply end_on_step; [exact Hlen| |exact Hdir].
    destruct (negb absolute && (a >? b)); auto.
Qed.

End Further.

(** ** Examples of the further properties *)

(** The period of January 1 to 10 and the period of January 3 to 15. *)
Lemma intersect_within_receiver_witness :
  Period.intersect Dateutil.day_delta
    (Period.create Dateutil.day_delta (jan 1) (jan 10) false)
    [Period.create Dateutil.day_delta (jan 3) (jan 15) false]
  = Some (Period.create Dateutil.day_delta (jan 3) (jan 10) false) /\
  Period.start (Period.create Dateutil.day_delta (jan 1) (jan 10) false)
  <= Period.start (Period.create Dateutil.day_delta (jan 3) (jan 10) false) /\
  Period.end_ (Period.create Dateutil.day_delta (jan 3) (jan 10) false)
  <= Period.end_ (Period.create Dateutil.day_delta (jan 1) (jan 10) false).
Proof.
  assert (H : Period.intersect Dateutil.day_delta
                (Period.create Dateutil.day_delta (jan 1) (jan 10) false)
                [Period.create Dateutil.day_delta (jan 3) (jan 15) false]
              = Some (Period.create Dateutil.day_delta (jan 3) (jan 10) false))
    by reflexivity.
  destruct (intersect_within_receiver Dateutil.day_delta _ _ _ H)
    as (A & B & _).
  split; [exact H|]. split; [exact A | exact B].
Defined.

(** Intersecting with January 3 to 15 and then with January 5 to 7. *)
Lemma intersect_chain_witness :
  Period.intersect Dateutil.day_delta
    (Period.create Dateutil.day_delta (jan 1) (jan 10) false)
    [Period.create Dateutil.day_delta (jan 3) (jan 15) false]
  = Some (Period.create Dateutil.day_delta (jan 3) (jan 10) false) /\
  Period.intersect Dateutil.day_delta
    (Period.create Dateutil.day_delta (jan 1) (jan 10) false)
    ([Period.create Dateutil.day_delta (jan 3) (jan 15) false]
     ++ [Period.create Dateutil.day_delta (jan 5) (jan 7) false])
  = Some (Period.create Dateutil.day_delta (jan 5) (jan 7) false).
Proof.
  assert (H : Period.intersect Dateutil.day_delta
                (Period.create Dateutil.day_delta (jan 1) (jan 10) false)
                [Period.create Dateutil.day_delta (jan 3) (jan 15) false]
              = Some (Period.create Dateutil.day_delta (jan 3) (jan 10) false))
    by reflexivity.
  split; [exact H|].
  exact (intersect_chain Dateutil.day_delta _ _
           [Period.create Dateutil.day_delta (jan 5) (jan 7) false] _ H).
Defined.

(** Two periods that overlap each other and the receiver, in both
    orders. *)
Lemma intersect_overlapping_witness :
  Period.intersect Dateutil.day_delta
    (Period.create Dateutil.day_delta (jan 1) (jan 10) false)
    [Period.create Dateutil.day_delta (jan 5) (jan 12) false;
     Period.create Dateutil.day_delta (jan 3) (jan 8) false]
  = Period.intersect Dateutil.day_delta
      (Period.create Dateutil.day_delta (jan 1) (jan 10) false)
      [Period.create Dateutil.day_delta (jan 3) (jan 8) false;
       Period.create Dateutil.day_delta (jan 5) (jan 12) false].
Proof.
  refine (proj1 (proj2
    (intersect_overlapping Dateutil.day_delta
       (Period.create Dateutil.day_delta (jan 1) (jan 10) false)
       [Period.create Dateutil.day_delta (jan 3) (jan 8) false;
        Period.create Dateutil.day_delta (jan 5) (jan 12) false]
       [Period.create Dateutil.day_delta (jan 5) (jan 12) false;
        Period.create Dateutil.day_delta (jan 3) (jan 8) false]
       _ _ _))).
  - intros q [<-|[<-|[]]]; split; apply Z.leb_le; reflexivity.
  - intros q q' [<-|[<-|[]]] [<-|[<-|[]]]; apply Z.leb_le; reflexivity.
  - apply perm_swap.
Defined.

(** Two hours and a half by hours: three points, and [end] is none of
    them. *)
Lemma range_fixed_unit_witness :
  unit_seconds hours = Some 3600 /\
  exists l,
    Period.range 4
      (Period.create Dateutil.day_delta (jan 1) (jan 1 + 9000) false) hours
    = Some l /\
    length l = 3%nat /\
    (In (jan 1 + 9000) l <-> (jan 1 + 9000 - jan 1) mod 3600 = 0).
Proof.
  split; [reflexivity|].
  refine (range_fixed_unit Dateutil.day_delta (jan 1) (jan 1 + 9000) false
            hours 3600 eq_refl 4%nat _).
  apply Nat.ltb_lt. reflexivity.
Defined.

(** A period of two hours across midnight touches two calendar days. *)
Example weekdays_across_midnight :
  Period.in_weekdays 3
    (Period.create Dateutil.day_delta (jun 1 + 23 * 3600) (jun 2 + 3600)
       false)
  = Some 2.
Proof. reflexivity. Qed.

(** The order of the supplied periods matters when they do not overlap
    one another. *)
Example intersect_order_matters :
  Period.intersect Dateutil.day_delta
    (Period.create Dateutil.day_delta (jan 1) (jan 10) false)
    [Period.create Dateutil.day_delta (jan 1) (jan 2) false;
     Period.create Dateutil.day_delta (jan 5) (jan 8) false]
  = Some (Period.create Dateutil.day_delta (jan 1) (jan 2) false) /\
  Period.intersect Dateutil.day_delta
    (Period.create Dateutil.day_delta (jan 1) (jan 10) false)
    [Period.create Dateutil.day_delta (jan 5) (jan 8) false;
     Period.create Dateutil.day_delta (jan 1) (jan 2) false]
  = Some (Period.create Dateutil.day_delta (jan 5) (jan 8) false).
Proof. split; reflexivity. Qed.

(** Iterating over January 1 to 5 and a half: five days, and [end] is not
    one of the points. *)
Lemma iter_days_witness :
  exists l,
    Period.list_iter 6
      (Period.create Dateutil.day_delta (jan 1) (jan 5 + 43200) false)
    = Some l /\
    length l = 5%nat /\
    hd_error l = Some (jan 1) /\
    (In (jan 5 + 43200) l <-> (jan 5 + 43200 - jan 1) mod SECONDS_PER_DAY = 0).
Proof.
  refine (iter_days Dateutil.day_delta (jan 1) (jan 5 + 43200) false 6%nat _).
  apply Nat.ltb_lt. reflexivity.
Defined.
